(** * The GNU Radio flow graph of the Gen2 UHF RFID reader (gr-rfid/grc/top_block.py)

    The file embeds the generated Python class [top_block]: its ten
    configuration variables, the nine blocks it instantiates, the eight
    connections it makes and its accessor methods.  Python numbers are
    modelled with their Python 2 arithmetic: [int] as [Z], [float] as an
    IEEE 754 binary64 value of [SpecFloat]. *)

From Stdlib Require Import ZArith QArith List String Bool Lia.
From Stdlib Require Import Floats.SpecFloat.
Import ListNotations.
Open Scope Z_scope.

(** ** Python numbers *)

Module Py.

Definition prec : Z := 53.
Definition emax : Z := 1024.

(** A Python number: an [int] (unbounded, Python 2 promotes to [long]) or
    a [float]. *)
Inductive num : Type :=
| Int (z : Z)
| Float (f : spec_float).

(** The exceptions the arithmetic of the flow graph can raise. *)
Inductive exn : Type :=
| ZeroDivisionError
| OverflowError
| ValueError.

(** Computations that either raise or return. *)
Definition result (A : Type) : Type := (exn + A)%type.

Definition ret {A} (a : A) : result A := inr a.
Definition raise {A} (e : exn) : result A := inl e.
Definition bind {A B} (c : result A) (k : A -> result B) : result B :=
  match c with
  | inl e => inl e
  | inr a => k a
  end.

(** A float literal [m * 2^e], rounded to nearest even. *)
Definition lit (m e : Z) : spec_float := binary_normalize prec emax m e false.

(** [float(z)]: the nearest double, [OverflowError] beyond the range. *)
Definition float_of_int (z : Z) : result spec_float :=
  match binary_normalize prec emax z 0 false with
  | S754_infinity _ => raise OverflowError
  | f => ret f
  end.

Definition to_float (x : num) : result spec_float :=
  match x with
  | Int z => float_of_int z
  | Float f => ret f
  end.

Definition is_zero (f : spec_float) : bool :=
  match f with
  | S754_zero _ => true
  | _ => false
  end.

(** [a / b] on floats raises on a zero divisor, whatever the dividend. *)
Definition float_div (a b : spec_float) : result spec_float :=
  if is_zero b then raise ZeroDivisionError else ret (SFdiv prec emax a b).

(** Python 2 [a / b] (no [from __future__ import division] in the file):
    floor division on two ints, float division otherwise. *)
Definition div (a b : num) : result num :=
  match a, b with
  | Int x, Int y =>
      if Z.eqb y 0 then raise ZeroDivisionError else ret (Int (Z.div x y))
  | _, _ =>
      bind (to_float a) (fun fa =>
      bind (to_float b) (fun fb =>
      bind (float_div fa fb) (fun q => ret (Float q))))
  end.

Definition mul (a b : num) : result num :=
  match a, b with
  | Int x, Int y => ret (Int (Z.mul x y))
  | _, _ =>
      bind (to_float a) (fun fa =>
      bind (to_float b) (fun fb =>
      ret (Float (SFmul prec emax fa fb))))
  end.

(** [int(x)]: truncation toward zero; [int(nan)] is a [ValueError],
    [int(inf)] an [OverflowError]. *)
Definition trunc (s : bool) (m : positive) (e : Z) : Z :=
  let a := match e with
           | Z0 => Zpos m
           | Zpos p => Z.shiftl (Zpos m) e
           | Zneg p => Z.shiftr (Zpos m) (Zpos p)
           end in
  if s then Z.opp a else a.

Definition int (x : num) : result Z :=
  match x with
  | Int z => ret z
  | Float (S754_zero _) => ret 0
  | Float (S754_finite s m e) => ret (trunc s m e)
  | Float (S754_infinity _) => raise OverflowError
  | Float S754_nan => raise ValueError
  end.

(** The largest index-sized integer ([sys.maxsize] on a 64-bit build). *)
Definition maxsize : Z := 2 ^ 63 - 1.

(** [l * n] on a list: [n] copies of [l], none when [n <= 0]; a count
    that does not fit an index, either way, is an [OverflowError].  Running
    out of memory on a long list is not modelled. *)
Fixpoint copies {A} (n : nat) (l : list A) : list A :=
  match n with
  | O => []
  | S k => l ++ copies k l
  end.

Definition list_mul {A} (l : list A) (n : Z) : result (list A) :=
  if Z.ltb n (- maxsize - 1) || Z.ltb maxsize n then raise OverflowError
  else ret (copies (Z.to_nat n) l).

(** The rational a number denotes; an infinity or a NaN denotes none. *)
Definition exact (x : num) : option Q :=
  match x with
  | Int z => Some (inject_Z z)
  | Float (S754_zero _) => Some (inject_Z 0)
  | Float (S754_finite s m e) =>
      let n := if s then Zneg m else Zpos m in
      Some match e with
           | Z0 => Qmake n 1
           | Zpos p => Qmake (n * 2 ^ e) 1
           | Zneg p => Qmake n (Pos.pow 2 p)
           end
  | Float _ => None
  end.

End Py.

Notation "x <- c ;; k" := (Py.bind c (fun x => k))
  (at level 61, c at next level, right associativity).


(** ** The blocks of the flow graph

    The block classes come from GNU Radio ([blocks], [filter]) and from the
    out-of-tree module [rfid]; the flow graph only instantiates them and
    calls their setters.  A block is represented by the arguments it was
    constructed with, as last changed by the setters called on it. *)

(** [rfid.tag_decoder(sample_rate)] *)
Record tag_decoder : Type := { td_sample_rate : Z }.

(** [rfid.reader(sample_rate, dac_rate)] *)
Record reader : Type := { rd_sample_rate : Z; rd_dac_rate : Z }.

(** [rfid.gate(sample_rate)] *)
Record gate : Type := { gate_sample_rate : Z }.

(** [filter.fir_filter_ccc(decimation, taps)] *)
Record fir_filter_ccc : Type := {
  fir_decimation : Py.num;
  fir_taps : list Py.num;
  fir_sample_delay : Z
}.

(** [blocks.multiply_const_vff(k)] *)
Record multiply_const_vff : Type := { k : list Py.num }.

(** [blocks.float_to_complex(vlen)] *)
Record float_to_complex : Type := { vlen : Z }.

(** [blocks.file_source(itemsize, filename, repeat)] *)
Record file_source : Type := {
  source_itemsize : Z;
  source_filename : string;
  source_repeat : bool
}.

(** [blocks.file_sink(itemsize, filename, append)] *)
Record file_sink : Type := {
  sink_itemsize : Z;
  sink_filename : string;
  sink_append : bool;
  sink_unbuffered : bool
}.

Definition new_fir_filter_ccc (decimation : Py.num) (taps : list Py.num) : fir_filter_ccc :=
  {| fir_decimation := decimation; fir_taps := taps; fir_sample_delay := 0 |}.

Definition declare_sample_delay (d : Z) (f : fir_filter_ccc) : fir_filter_ccc :=
  {| fir_decimation := fir_decimation f; fir_taps := fir_taps f; fir_sample_delay := d |}.

Definition set_taps (taps : list Py.num) (f : fir_filter_ccc) : fir_filter_ccc :=
  {| fir_decimation := fir_decimation f; fir_taps := taps;
     fir_sample_delay := fir_sample_delay f |}.

Definition set_k (v : list Py.num) (m : multiply_const_vff) : multiply_const_vff :=
  {| k := v |}.

Definition new_file_sink (itemsize : Z) (filename : string) (append : bool) : file_sink :=
  {| sink_itemsize := itemsize; sink_filename := filename; sink_append := append;
     sink_unbuffered := false |}.

Definition set_unbuffered (b : bool) (s : file_sink) : file_sink :=
  {| sink_itemsize := sink_itemsize s; sink_filename := sink_filename s;
     sink_append := sink_append s; sink_unbuffered := b |}.

(** [gr.sizeof_gr_complex]: a complex sample is two 32-bit floats. *)
Definition sizeof_gr_complex : Z := 8.

(** The nine block attributes of [top_block], as names of graph nodes, and
    the class each one is an instance of. *)
Module Id.
Inductive t : Type :=
| rfid_tag_decoder_0
| rfid_reader_0
| rfid_gate_0
| fir_filter_xxx_0
| blocks_multiply_const_vxx_0
| blocks_float_to_complex_0
| blocks_file_source_0
| blocks_file_sink_1
| blocks_file_sink_0.

Definition eqb (a b : t) : bool :=
  match a, b with
  | rfid_tag_decoder_0, rfid_tag_decoder_0
  | rfid_reader_0, rfid_reader_0
  | rfid_gate_0, rfid_gate_0
  | fir_filter_xxx_0, fir_filter_xxx_0
  | blocks_multiply_const_vxx_0, blocks_multiply_const_vxx_0
  | blocks_float_to_complex_0, blocks_float_to_complex_0
  | blocks_file_source_0, blocks_file_source_0
  | blocks_file_sink_1, blocks_file_sink_1
  | blocks_file_sink_0, blocks_file_sink_0 => true
  | _, _ => false
  end.

Inductive class : Type :=
| TagDecoder | Reader | Gate | FirFilter | MultiplyConst | FloatToComplex
| FileSource | FileSink.

Definition class_of (b : t) : class :=
  match b with
  | rfid_tag_decoder_0 => TagDecoder
  | rfid_reader_0 => Reader
  | rfid_gate_0 => Gate
  | fir_filter_xxx_0 => FirFilter
  | blocks_multiply_const_vxx_0 => MultiplyConst
  | blocks_float_to_complex_0 => FloatToComplex
  | blocks_file_source_0 => FileSource
  | blocks_file_sink_1 => FileSink
  | blocks_file_sink_0 => FileSink
  end.
End Id.

(** An endpoint [(block, port)] and a connection [connect(src, dst)]. *)
Definition endpoint : Type := (Id.t * nat)%type.
Definition connection : Type := (endpoint * endpoint)%type.

(** ** The state of a [top_block] object *)

Record variables : Type := {
  blf : Py.num;
  adc_rate : Py.num;
  tx_gain : Py.num;
  samp_rate : Py.num;
  rx_gain : Py.num;
  num_taps : list Py.num;
  freq : Py.num;
  decim : Py.num;
  dac_rate : Py.num;
  ampl : Py.num
}.

Record blocks : Type := {
  rfid_tag_decoder_0 : tag_decoder;
  rfid_reader_0 : reader;
  rfid_gate_0 : gate;
  fir_filter_xxx_0 : fir_filter_ccc;
  blocks_multiply_const_vxx_0 : multiply_const_vff;
  blocks_float_to_complex_0 : float_to_complex;
  blocks_file_source_0 : file_source;
  blocks_file_sink_1 : file_sink;
  blocks_file_sink_0 : file_sink
}.

Record top_block : Type := {
  vars : variables;
  blks : blocks;
  connections : list connection
}.

(** Field updates, one per attribute the methods assign. *)
Definition with_blf (v : Py.num) (x : variables) : variables :=
  {| blf := v; adc_rate := adc_rate x; tx_gain := tx_gain x; samp_rate := samp_rate x;
     rx_gain := rx_gain x; num_taps := num_taps x; freq := freq x; decim := decim x;
     dac_rate := dac_rate x; ampl := ampl x |}.

Definition with_adc_rate (v : Py.num) (x : variables) : variables :=
  {| blf := blf x; adc_rate := v; tx_gain := tx_gain x; samp_rate := samp_rate x;
     rx_gain := rx_gain x; num_taps := num_taps x; freq := freq x; decim := decim x;
     dac_rate := dac_rate x; ampl := ampl x |}.

Definition with_tx_gain (v : Py.num) (x : variables) : variables :=
  {| blf := blf x; adc_rate := adc_rate x; tx_gain := v; samp_rate := samp_rate x;
     rx_gain := rx_gain x; num_taps := num_taps x; freq := freq x; decim := decim x;
     dac_rate := dac_rate x; ampl := ampl x |}.

Definition with_samp_rate (v : Py.num) (x : variables) : variables :=
  {| blf := blf x; adc_rate := adc_rate x; tx_gain := tx_gain x; samp_rate := v;
     rx_gain := rx_gain x; num_taps := num_taps x; freq := freq x; decim := decim x;
     dac_rate := dac_rate x; ampl := ampl x |}.

Definition with_rx_gain (v : Py.num) (x : variables) : variables :=
  {| blf := blf x; adc_rate := adc_rate x; tx_gain := tx_gain x; samp_rate := samp_rate x;
     rx_gain := v; num_taps := num_taps x; freq := freq x; decim := decim x;
     dac_rate := dac_rate x; ampl := ampl x |}.

Definition with_num_taps (v : list Py.num) (x : variables) : variables :=
  {| blf := blf x; adc_rate := adc_rate x; tx_gain := tx_gain x; samp_rate := samp_rate x;
     rx_gain := rx_gain x; num_taps := v; freq := freq x; decim := decim x;
     dac_rate := dac_rate x; ampl := ampl x |}.

Definition with_freq (v : Py.num) (x : variables) : variables :=
  {| blf := blf x; adc_rate := adc_rate x; tx_gain := tx_gain x; samp_rate := samp_rate x;
     rx_gain := rx_gain x; num_taps := num_taps x; freq := v; decim := decim x;
     dac_rate := dac_rate x; ampl := ampl x |}.

Definition with_decim (v : Py.num) (x : variables) : variables :=
  {| blf := blf x; adc_rate := adc_rate x; tx_gain := tx_gain x; samp_rate := samp_rate x;
     rx_gain := rx_gain x; num_taps := num_taps x; freq := freq x; decim := v;
     dac_rate := dac_rate x; ampl := ampl x |}.

Definition with_dac_rate (v : Py.num) (x : variables) : variables :=
  {| blf := blf x; adc_rate := adc_rate x; tx_gain := tx_gain x; samp_rate := samp_rate x;
     rx_gain := rx_gain x; num_taps := num_taps x; freq := freq x; decim := decim x;
     dac_rate := v; ampl := ampl x |}.

Definition with_ampl (v : Py.num) (x : variables) : variables :=
  {| blf := blf x; adc_rate := adc_rate x; tx_gain := tx_gain x; samp_rate := samp_rate x;
     rx_gain := rx_gain x; num_taps := num_taps x; freq := freq x; decim := decim x;
     dac_rate := dac_rate x; ampl := v |}.

Definition with_fir (f : fir_filter_ccc) (b : blocks) : blocks :=
  {| rfid_tag_decoder_0 := rfid_tag_decoder_0 b;
     rfid_reader_0 := rfid_reader_0 b;
     rfid_gate_0 := rfid_gate_0 b;
     fir_filter_xxx_0 := f;
     blocks_multiply_const_vxx_0 := blocks_multiply_const_vxx_0 b;
     blocks_float_to_complex_0 := blocks_float_to_complex_0 b;
     blocks_file_source_0 := blocks_file_source_0 b;
     blocks_file_sink_1 := blocks_file_sink_1 b;
     blocks_file_sink_0 := blocks_file_sink_0 b |}.

Definition with_multiply_const (m : multiply_const_vff) (b : blocks) : blocks :=
  {| rfid_tag_decoder_0 := rfid_tag_decoder_0 b;
     rfid_reader_0 := rfid_reader_0 b;
     rfid_gate_0 := rfid_gate_0 b;
     fir_filter_xxx_0 := fir_filter_xxx_0 b;
     blocks_multiply_const_vxx_0 := m;
     blocks_float_to_complex_0 := blocks_float_to_complex_0 b;
     blocks_file_source_0 := blocks_file_source_0 b;
     blocks_file_sink_1 := blocks_file_sink_1 b;
     blocks_file_sink_0 := blocks_file_sink_0 b |}.

(** [self.x = v] for a variable, and a setter call on a block of [self]. *)
Definition assign (f : variables -> variables) (self : top_block) : top_block :=
  {| vars := f (vars self); blks := blks self; connections := connections self |}.

Definition on_blocks (f : blocks -> blocks) (self : top_block) : top_block :=
  {| vars := vars self; blks := f (blks self); connections := connections self |}.

(** ** Construction ([top_block.__init__]) *)

(** The expression [[1] * int(adc_rate/blf * 0.5)] of lines 66, 110 and 117. *)
Definition tap_count (adc_rate blf : Py.num) : Py.result Z :=
  q <- Py.div adc_rate blf ;;
  h <- Py.mul q (Py.Float (Py.lit 1 (-1))) ;;
  Py.int h.

Definition tap_vector (adc_rate blf : Py.num) : Py.result (list Py.num) :=
  n <- tap_count adc_rate blf ;;
  Py.list_mul [Py.Int 1] n.

(** The expression [int(adc_rate/decim)] of lines 75 to 77. *)
Definition effective_rate (adc_rate decim : Py.num) : Py.result Z :=
  q <- Py.div adc_rate decim ;;
  Py.int q.

Definition file_source_test : string :=
  "/home/andreas/Engineering/PartIIB/Project/repos/Hertz/gr-rfid/misc/data/file_source_test".

Definition file_sink_path : string :=
  "/home/andreas/Engineering/PartIIB/Project/repos/Hertz/gr-rfid/misc/data/file_sink".

(** The [self.connect] calls of lines 91 to 98, in order. *)
Definition wiring : list connection :=
  [ ((Id.blocks_file_source_0, 0%nat), (Id.fir_filter_xxx_0, 0%nat));
    ((Id.blocks_float_to_complex_0, 0%nat), (Id.blocks_file_sink_0, 0%nat));
    ((Id.blocks_multiply_const_vxx_0, 0%nat), (Id.blocks_float_to_complex_0, 0%nat));
    ((Id.fir_filter_xxx_0, 0%nat), (Id.rfid_gate_0, 0%nat));
    ((Id.rfid_gate_0, 0%nat), (Id.rfid_tag_decoder_0, 0%nat));
    ((Id.rfid_reader_0, 0%nat), (Id.blocks_multiply_const_vxx_0, 0%nat));
    ((Id.rfid_tag_decoder_0, 1%nat), (Id.blocks_file_sink_1, 0%nat));
    ((Id.rfid_tag_decoder_0, 0%nat), (Id.rfid_reader_0, 0%nat)) ].

(** The values the "Variables" section binds, [num_taps] apart (it is
    derived from [adc_rate] and [blf]). *)
Record config : Type := {
  cfg_blf : Py.num;
  cfg_adc_rate : Py.num;
  cfg_tx_gain : Py.num;
  cfg_samp_rate : Py.num;
  cfg_rx_gain : Py.num;
  cfg_freq : Py.num;
  cfg_decim : Py.num;
  cfg_dac_rate : Py.num;
  cfg_ampl : Py.num
}.

(** Lines 61 to 98 for given variable values: the derived [num_taps], the
    blocks and the connections, evaluated in source order. *)
Definition build (c : config) : Py.result top_block :=
  taps <- tap_vector (cfg_adc_rate c) (cfg_blf c) ;;
  td_rate <- effective_rate (cfg_adc_rate c) (cfg_decim c) ;;
  rd_rate <- effective_rate (cfg_adc_rate c) (cfg_decim c) ;;
  rd_dac <- Py.int (cfg_dac_rate c) ;;
  gate_rate <- effective_rate (cfg_adc_rate c) (cfg_decim c) ;;
  Py.ret
    {| vars :=
         {| blf := cfg_blf c; adc_rate := cfg_adc_rate c; tx_gain := cfg_tx_gain c;
            samp_rate := cfg_samp_rate c; rx_gain := cfg_rx_gain c; num_taps := taps;
            freq := cfg_freq c; decim := cfg_decim c; dac_rate := cfg_dac_rate c;
            ampl := cfg_ampl c |};
       blks :=
         {| rfid_tag_decoder_0 := {| td_sample_rate := td_rate |};
            rfid_reader_0 := {| rd_sample_rate := rd_rate; rd_dac_rate := rd_dac |};
            rfid_gate_0 := {| gate_sample_rate := gate_rate |};
            fir_filter_xxx_0 :=
              declare_sample_delay 0 (new_fir_filter_ccc (cfg_decim c) taps);
            blocks_multiply_const_vxx_0 := {| k := [cfg_ampl c] |};
            blocks_float_to_complex_0 := {| vlen := 1 |};
            blocks_file_source_0 :=
              {| source_itemsize := sizeof_gr_complex * 1;
                 source_filename := file_source_test;
                 source_repeat := false |};
            blocks_file_sink_1 :=
              set_unbuffered false
                (new_file_sink (sizeof_gr_complex * 1) file_sink_path false);
            blocks_file_sink_0 :=
              set_unbuffered false
                (new_file_sink (sizeof_gr_complex * 1) file_sink_path false) |};
       connections := wiring |}.

(** The shipped values of lines 61 to 70.  The decimal literals denote
    doubles that are exact: [40e3], [100e6], [910e6], [1e6] are integers and
    [0.5] is [2^-1]. *)
Definition shipped (adc_rate : Py.num) : config :=
  {| cfg_blf := Py.Float (Py.lit 40000 0);
     cfg_adc_rate := adc_rate;
     cfg_tx_gain := Py.Int 0;
     cfg_samp_rate := Py.Int 32000;
     cfg_rx_gain := Py.Int 20;
     cfg_freq := Py.Float (Py.lit 910000000 0);
     cfg_decim := Py.Int 5;
     cfg_dac_rate := Py.Float (Py.lit 1000000 0);
     cfg_ampl := Py.Float (Py.lit 1 (-1)) |}.

(** [top_block()] *)
Definition __init__ : Py.result top_block :=
  adc_rate <- Py.div (Py.Float (Py.lit 100000000 0)) (Py.Int 50) ;;
  build (shipped adc_rate).

(** ** Methods

    A method takes [self] and leaves it changed; an exception raised midway
    keeps the assignments made before it. *)
Definition method (A : Type) : Type := top_block -> top_block * Py.result A.

Definition mret {A} (a : A) : method A := fun self => (self, inr a).

Definition mbind {A B} (c : method A) (f : A -> method B) : method B :=
  fun self =>
    match c self with
    | (self', inl e) => (self', inl e)
    | (self', inr a) => f a self'
    end.

Definition modify (f : top_block -> top_block) : method unit :=
  fun self => (f self, inr tt).

Definition read {A} (p : top_block -> A) : method A :=
  fun self => (self, inr (p self)).

Definition eval {A} (e : top_block -> Py.result A) : method A :=
  fun self => (self, e self).

Notation "x <~ c ;; f" := (mbind c (fun x => f))
  (at level 61, c at next level, right associativity).
Notation "c ;;; f" := (mbind c (fun _ => f))
  (at level 61, right associativity).

Definition get_blf : method Py.num := read (fun self => blf (vars self)).
Definition get_adc_rate : method Py.num := read (fun self => adc_rate (vars self)).
Definition get_tx_gain : method Py.num := read (fun self => tx_gain (vars self)).
Definition get_samp_rate : method Py.num := read (fun self => samp_rate (vars self)).
Definition get_rx_gain : method Py.num := read (fun self => rx_gain (vars self)).
Definition get_num_taps : method (list Py.num) := read (fun self => num_taps (vars self)).
Definition get_freq : method Py.num := read (fun self => freq (vars self)).
Definition get_decim : method Py.num := read (fun self => decim (vars self)).
Definition get_dac_rate : method Py.num := read (fun self => dac_rate (vars self)).
Definition get_ampl : method Py.num := read (fun self => ampl (vars self)).

Definition set_num_taps (v : list Py.num) : method unit :=
  modify (assign (with_num_taps v)) ;;;
  taps <~ read (fun self => num_taps (vars self)) ;;
  modify (on_blocks (fun b => with_fir (set_taps taps (fir_filter_xxx_0 b)) b)).

Definition set_blf (v : Py.num) : method unit :=
  modify (assign (with_blf v)) ;;;
  taps <~ eval (fun self => tap_vector (adc_rate (vars self)) (blf (vars self))) ;;
  set_num_taps taps.

Definition set_adc_rate (v : Py.num) : method unit :=
  modify (assign (with_adc_rate v)) ;;;
  taps <~ eval (fun self => tap_vector (adc_rate (vars self)) (blf (vars self))) ;;
  set_num_taps taps.

Definition set_tx_gain (v : Py.num) : method unit := modify (assign (with_tx_gain v)).
Definition set_samp_rate (v : Py.num) : method unit := modify (assign (with_samp_rate v)).
Definition set_rx_gain (v : Py.num) : method unit := modify (assign (with_rx_gain v)).
Definition set_freq (v : Py.num) : method unit := modify (assign (with_freq v)).
Definition set_decim (v : Py.num) : method unit := modify (assign (with_decim v)).
Definition set_dac_rate (v : Py.num) : method unit := modify (assign (with_dac_rate v)).

Definition set_ampl (v : Py.num) : method unit :=
  modify (assign (with_ampl v)) ;;;
  a <~ read (fun self => ampl (vars self)) ;;
  modify (on_blocks (fun b => with_multiply_const (set_k [a] (blocks_multiply_const_vxx_0 b)) b)).


(** ** Attribute access by name *)

Inductive var : Type :=
| Blf | Adc_rate | Tx_gain | Samp_rate | Rx_gain | Num_taps | Freq | Decim | Dac_rate | Ampl.

(** [getattr(self, x)]: a number, or the tap list for [num_taps]. *)
Definition getattr (x : var) (self : top_block) : Py.num + list Py.num :=
  match x with
  | Blf => inl (blf (vars self))
  | Adc_rate => inl (adc_rate (vars self))
  | Tx_gain => inl (tx_gain (vars self))
  | Samp_rate => inl (samp_rate (vars self))
  | Rx_gain => inl (rx_gain (vars self))
  | Num_taps => inr (num_taps (vars self))
  | Freq => inl (freq (vars self))
  | Decim => inl (decim (vars self))
  | Dac_rate => inl (dac_rate (vars self))
  | Ampl => inl (ampl (vars self))
  end.

(** ** Sequences of setter calls *)

Inductive call : Type :=
| Set_blf (v : Py.num)
| Set_adc_rate (v : Py.num)
| Set_tx_gain (v : Py.num)
| Set_samp_rate (v : Py.num)
| Set_rx_gain (v : Py.num)
| Set_num_taps (v : list Py.num)
| Set_freq (v : Py.num)
| Set_decim (v : Py.num)
| Set_dac_rate (v : Py.num)
| Set_ampl (v : Py.num).

Definition invoke (c : call) : method unit :=
  match c with
  | Set_blf v => set_blf v
  | Set_adc_rate v => set_adc_rate v
  | Set_tx_gain v => set_tx_gain v
  | Set_samp_rate v => set_samp_rate v
  | Set_rx_gain v => set_rx_gain v
  | Set_num_taps v => set_num_taps v
  | Set_freq v => set_freq v
  | Set_decim v => set_decim v
  | Set_dac_rate v => set_dac_rate v
  | Set_ampl v => set_ampl v
  end.

(** The object after construction and any number of setter calls, whether
    they returned or raised. *)
Inductive reachable : top_block -> Prop :=
| reach_init : forall self, __init__ = inr self -> reachable self
| reach_call : forall self c, reachable self -> reachable (fst (invoke c self)).

(** The object [top_block()] returns. *)
Definition started : top_block :=
  Eval vm_compute in
    match __init__ as r return (match r with inl _ => unit | inr _ => top_block end) with
    | inl _ => tt
    | inr self => self
    end.

(** ** The connection graph *)

(** The connections leaving block [a], and those entering it, in the order
    they were made. *)
Definition outgoing (g : list connection) (a : Id.t) : list connection :=
  filter (fun c => Id.eqb (fst (fst c)) a) g.

Definition incoming (g : list connection) (a : Id.t) : list connection :=
  filter (fun c => Id.eqb (fst (snd c)) a) g.

Definition feeds (g : list connection) (a b : Id.t) : Prop :=
  exists p q, In ((a, p), (b, q)) g.

(** [b] is downstream of [a]: samples leaving [a] can reach [b]. *)
Inductive downstream (g : list connection) : Id.t -> Id.t -> Prop :=
| ds_edge : forall a b, feeds g a b -> downstream g a b
| ds_next : forall a b c, feeds g a b -> downstream g b c -> downstream g a c.

(** ** Properties the statements below refer to *)

(** A successful call of the setter leaves [num_taps] equal to the vector
    recomputed from the stored [adc_rate] and [blf], and the filter holding
    it. *)
Definition retunes_filter (set_x : Py.num -> method unit) : Prop :=
  forall v self self',
    set_x v self = (self', inr tt) ->
    tap_vector (adc_rate (vars self')) (blf (vars self')) = inr (num_taps (vars self')) /\
    fir_taps (fir_filter_xxx_0 (blks self')) = num_taps (vars self').

(** The call returns and assigns [x], nothing else: every other attribute,
    every block and the connections are as before. *)
Definition only_assigns (x : var) (set_x : Py.num -> method unit) : Prop :=
  forall v self,
    exists self',
      set_x v self = (self', inr tt) /\
      getattr x self' = inl v /\
      (forall y, y <> x -> getattr y self' = getattr y self) /\
      blks self' = blks self /\
      connections self' = connections self.

Definition with_cfg_decim (d : Py.num) (c : config) : config :=
  {| cfg_blf := cfg_blf c; cfg_adc_rate := cfg_adc_rate c; cfg_tx_gain := cfg_tx_gain c;
     cfg_samp_rate := cfg_samp_rate c; cfg_rx_gain := cfg_rx_gain c;
     cfg_freq := cfg_freq c; cfg_decim := d; cfg_dac_rate := cfg_dac_rate c;
     cfg_ampl := cfg_ampl c |}.

(** The rate/decimation relationship: [adc_rate / decim] equals
    [blf * samples_per_symbol] for a positive integer number of samples per
    symbol, the values taken exactly. *)
Definition consistent (c : config) : Prop :=
  exists (a d b : Q) (sps : Z),
    Py.exact (cfg_adc_rate c) = Some a /\
    Py.exact (cfg_decim c) = Some d /\
    Py.exact (cfg_blf c) = Some b /\
    ~ (d == 0)%Q /\
    0 < sps /\
    (a / d == b * inject_Z sps)%Q.

(** The shipped variable values, [adc_rate] being [100e6 / 50]. *)
Definition shipped_config : config := shipped (Py.Float (Py.lit 2000000 0)).

(** The shipped values with the decimation changed from 5 to 3. *)
Definition detuned_config : config := with_cfg_decim (Py.Int 3) shipped_config.

(** The blocks with the two settable parameters (filter taps, multiplier
    constant) blanked: what no method can change. *)
Definition frozen (b : blocks) : blocks :=
  with_fir (set_taps [] (fir_filter_xxx_0 b))
    (with_multiply_const (set_k [] (blocks_multiply_const_vxx_0 b)) b).

(** What holds of the object from construction on. *)
Definition in_step (self : top_block) : Prop :=
  connections self = wiring /\
  frozen (blks self) = frozen (blks started) /\
  fir_taps (fir_filter_xxx_0 (blks self)) = num_taps (vars self) /\
  k (blocks_multiply_const_vxx_0 (blks self)) = [ampl (vars self)].

(** The blocks of the transmit path that follows the Reader. *)
Definition transmit_side (b : Id.t) : Prop :=
  b = Id.blocks_multiply_const_vxx_0 \/
  b = Id.blocks_float_to_complex_0 \/
  b = Id.blocks_file_sink_0.

(** ** Footprints of the setter calls *)

Definition var_eqb (x y : var) : bool :=
  match x, y with
  | Blf, Blf | Adc_rate, Adc_rate | Tx_gain, Tx_gain | Samp_rate, Samp_rate
  | Rx_gain, Rx_gain | Num_taps, Num_taps | Freq, Freq | Decim, Decim
  | Dac_rate, Dac_rate | Ampl, Ampl => true
  | _, _ => false
  end.

(** The variable a setter assigns first, and the value it assigns. *)
Definition target (c : call) : var :=
  match c with
  | Set_blf _ => Blf
  | Set_adc_rate _ => Adc_rate
  | Set_tx_gain _ => Tx_gain
  | Set_samp_rate _ => Samp_rate
  | Set_rx_gain _ => Rx_gain
  | Set_num_taps _ => Num_taps
  | Set_freq _ => Freq
  | Set_decim _ => Decim
  | Set_dac_rate _ => Dac_rate
  | Set_ampl _ => Ampl
  end.

Definition argument (c : call) : Py.num + list Py.num :=
  match c with
  | Set_num_taps v => inr v
  | Set_blf v | Set_adc_rate v | Set_tx_gain v | Set_samp_rate v | Set_rx_gain v
  | Set_freq v | Set_decim v | Set_dac_rate v | Set_ampl v => inl v
  end.

(** The setters that end in [set_num_taps]: they write [num_taps] and the
    filter's taps. *)
Definition tunes (c : call) : bool :=
  match c with
  | Set_blf _ | Set_adc_rate _ | Set_num_taps _ => true
  | _ => false
  end.

(** Two calls that assign different variables and do not both write the
    taps. *)
Definition independent (c1 c2 : call) : bool :=
  negb (var_eqb (target c1) (target c2)) && negb (tunes c1 && tunes c2).

(** A number that is zero: [0], [0.0] or [-0.0]. *)
Definition zero (x : Py.num) : bool :=
  match x with
  | Py.Int z => Z.eqb z 0
  | Py.Float f => Py.is_zero f
  end.

(** The constructed object after [set_adc_rate(4e6)]: the stored rate has
    doubled. *)
Definition drifted : top_block :=
  fst (set_adc_rate (Py.Float (Py.lit 4000000 0)) started).

(** * Proofs *)

(** ** The setters, one equation each *)

Lemma init_started : __init__ = inr started.
Proof. vm_compute. reflexivity. Qed.

Lemma build_shipped : build shipped_config = inr started.
Proof. vm_compute. reflexivity. Qed.

Lemma set_num_taps_eq (v : list Py.num) (self : top_block) :
  set_num_taps v self =
  (on_blocks (fun b => with_fir (set_taps v (fir_filter_xxx_0 b)) b)
     (assign (with_num_taps v) self), inr tt).
Proof. reflexivity. Qed.

Lemma set_blf_eq (v : Py.num) (self : top_block) :
  set_blf v self =
  match tap_vector (adc_rate (vars self)) v with
  | inl e => (assign (with_blf v) self, inl e)
  | inr taps => set_num_taps taps (assign (with_blf v) self)
  end.
Proof.
  unfold set_blf, mbind, modify, eval. cbn [assign with_blf vars adc_rate blf].
  destruct (tap_vector (adc_rate (vars self)) v); reflexivity.
Qed.

Lemma set_adc_rate_eq (v : Py.num) (self : top_block) :
  set_adc_rate v self =
  match tap_vector v (blf (vars self)) with
  | inl e => (assign (with_adc_rate v) self, inl e)
  | inr taps => set_num_taps taps (assign (with_adc_rate v) self)
  end.
Proof.
  unfold set_adc_rate, mbind, modify, eval. cbn [assign with_adc_rate vars adc_rate blf].
  destruct (tap_vector v (blf (vars self))); reflexivity.
Qed.

Lemma set_ampl_eq (v : Py.num) (self : top_block) :
  set_ampl v self =
  (on_blocks (fun b => with_multiply_const (set_k [v] (blocks_multiply_const_vxx_0 b)) b)
     (assign (with_ampl v) self), inr tt).
Proof. reflexivity. Qed.

(** ** The invariant of the object *)

Lemma started_in_step : in_step started.
Proof. repeat split. Qed.

Lemma invoke_in_step (c : call) (self : top_block) :
  in_step self -> in_step (fst (invoke c self)).
Proof.
  intros (Hw & Hf & Ht & Hk).
  destruct c as [v|v|v|v|v|v|v|v|v|v]; cbn [invoke];
    try (repeat split; assumption).
  - rewrite set_blf_eq.
    destruct (tap_vector (adc_rate (vars self)) v); repeat split; assumption.
  - rewrite set_adc_rate_eq.
    destruct (tap_vector v (blf (vars self))); repeat split; assumption.
Qed.

Lemma reachable_in_step (self : top_block) : reachable self -> in_step self.
Proof.
  induction 1 as [self H | self c _ IH].
  - rewrite init_started in H. injection H as <-. exact started_in_step.
  - exact (invoke_in_step c self IH).
Qed.

Lemma reachable_started : reachable started.
Proof. apply reach_init, init_started. Qed.

Lemma frozen_static (b b' : blocks) :
  frozen b = frozen b' ->
  rfid_tag_decoder_0 b = rfid_tag_decoder_0 b' /\
  rfid_reader_0 b = rfid_reader_0 b' /\
  rfid_gate_0 b = rfid_gate_0 b' /\
  fir_decimation (fir_filter_xxx_0 b) = fir_decimation (fir_filter_xxx_0 b') /\
  fir_sample_delay (fir_filter_xxx_0 b) = fir_sample_delay (fir_filter_xxx_0 b') /\
  blocks_float_to_complex_0 b = blocks_float_to_complex_0 b' /\
  blocks_file_source_0 b = blocks_file_source_0 b' /\
  blocks_file_sink_1 b = blocks_file_sink_1 b' /\
  blocks_file_sink_0 b = blocks_file_sink_0 b'.
Proof.
  intros H.
  split; [exact (f_equal rfid_tag_decoder_0 H)|].
  split; [exact (f_equal rfid_reader_0 H)|].
  split; [exact (f_equal rfid_gate_0 H)|].
  split; [exact (f_equal (fun x => fir_decimation (fir_filter_xxx_0 x)) H)|].
  split; [exact (f_equal (fun x => fir_sample_delay (fir_filter_xxx_0 x)) H)|].
  split; [exact (f_equal blocks_float_to_complex_0 H)|].
  split; [exact (f_equal blocks_file_source_0 H)|].
  split; [exact (f_equal blocks_file_sink_1 H)|].
  exact (f_equal blocks_file_sink_0 H).
Qed.

(** ** The wiring *)

Lemma feeds_wiring_transmit (a b : Id.t) :
  feeds wiring a b ->
  a = Id.rfid_reader_0 \/ transmit_side a ->
  transmit_side b.
Proof.
  intros (p & q & Hin) Ha. unfold transmit_side in *.
  cbn [wiring In] in Hin.
  repeat (destruct Hin as [Hin | Hin];
          [injection Hin as <- <- <- <-;
           (destruct Ha as [Ha | [Ha | [Ha | Ha]]]; try discriminate Ha); tauto | ]).
  contradiction.
Qed.

Lemma downstream_wiring_transmit (a b : Id.t) :
  downstream wiring a b ->
  a = Id.rfid_reader_0 \/ transmit_side a ->
  transmit_side b.
Proof.
  induction 1 as [a b Hf | a b c Hf _ IH]; intros Ha.
  - exact (feeds_wiring_transmit a b Hf Ha).
  - apply IH. right. exact (feeds_wiring_transmit a b Hf Ha).
Qed.

(** C4. In the assembled flow graph, and after any setter calls, the Gate's
    port 0 feeds the TagDecoder, the TagDecoder's port 0 feeds the Reader,
    and the Reader's only output goes to the multiplier, then
    float-to-complex, then a file sink that has no output: nothing
    downstream of the Reader is the Gate, the TagDecoder or the Reader. *)
Theorem core_flows_one_way (self : top_block) :
  reachable self ->
  let g := connections self in
  In ((Id.rfid_gate_0, 0%nat), (Id.rfid_tag_decoder_0, 0%nat)) g /\
  In ((Id.rfid_tag_decoder_0, 0%nat), (Id.rfid_reader_0, 0%nat)) g /\
  outgoing g Id.rfid_gate_0 =
    [((Id.rfid_gate_0, 0%nat), (Id.rfid_tag_decoder_0, 0%nat))] /\
  incoming g Id.rfid_gate_0 =
    [((Id.fir_filter_xxx_0, 0%nat), (Id.rfid_gate_0, 0%nat))] /\
  incoming g Id.rfid_tag_decoder_0 =
    [((Id.rfid_gate_0, 0%nat), (Id.rfid_tag_decoder_0, 0%nat))] /\
  incoming g Id.rfid_reader_0 =
    [((Id.rfid_tag_decoder_0, 0%nat), (Id.rfid_reader_0, 0%nat))] /\
  outgoing g Id.rfid_reader_0 =
    [((Id.rfid_reader_0, 0%nat), (Id.blocks_multiply_const_vxx_0, 0%nat))] /\
  outgoing g Id.blocks_multiply_const_vxx_0 =
    [((Id.blocks_multiply_const_vxx_0, 0%nat), (Id.blocks_float_to_complex_0, 0%nat))] /\
  outgoing g Id.blocks_float_to_complex_0 =
    [((Id.blocks_float_to_complex_0, 0%nat), (Id.blocks_file_sink_0, 0%nat))] /\
  outgoing g Id.blocks_file_sink_0 = [] /\
  ~ downstream g Id.rfid_reader_0 Id.rfid_gate_0 /\
  ~ downstream g Id.rfid_reader_0 Id.rfid_tag_decoder_0 /\
  ~ downstream g Id.rfid_reader_0 Id.rfid_reader_0.
Proof.
  intros Hr g. destruct (reachable_in_step self Hr) as (Hw & _).
  subst g. rewrite Hw.
  assert (Hdown : forall b, downstream wiring Id.rfid_reader_0 b -> transmit_side b).
  { intros b Hb. apply (downstream_wiring_transmit _ _ Hb). now left. }
  repeat (split; [first [reflexivity | cbn; tauto] |]).
  repeat split; intros Hd; apply Hdown in Hd;
    destruct Hd as [Hd | [Hd | Hd]]; discriminate Hd.
Qed.

Lemma core_flows_one_way_started :
  reachable started /\
  In ((Id.rfid_gate_0, 0%nat), (Id.rfid_tag_decoder_0, 0%nat)) (connections started).
Proof.
  split; [exact reachable_started |].
  exact (proj1 (core_flows_one_way started reachable_started)).
Defined.

(** C5. The transceiver is simulated with files: a file source feeds the
    decimating FIR filter, which feeds the Gate; the Reader's output goes
    through the multiplier and float-to-complex into a file sink; the
    TagDecoder's port 1 goes into a second file sink; neither sink has an
    output. *)
Theorem file_backed_transceiver (self : top_block) :
  reachable self ->
  let g := connections self in
  Id.class_of Id.blocks_file_source_0 = Id.FileSource /\
  blocks_file_source_0 (blks self) =
    {| source_itemsize := 8; source_filename := file_source_test;
       source_repeat := false |} /\
  incoming g Id.blocks_file_source_0 = [] /\
  outgoing g Id.blocks_file_source_0 =
    [((Id.blocks_file_source_0, 0%nat), (Id.fir_filter_xxx_0, 0%nat))] /\
  fir_decimation (fir_filter_xxx_0 (blks self)) = Py.Int 5 /\
  outgoing g Id.fir_filter_xxx_0 =
    [((Id.fir_filter_xxx_0, 0%nat), (Id.rfid_gate_0, 0%nat))] /\
  outgoing g Id.rfid_reader_0 =
    [((Id.rfid_reader_0, 0%nat), (Id.blocks_multiply_const_vxx_0, 0%nat))] /\
  outgoing g Id.blocks_multiply_const_vxx_0 =
    [((Id.blocks_multiply_const_vxx_0, 0%nat), (Id.blocks_float_to_complex_0, 0%nat))] /\
  outgoing g Id.blocks_float_to_complex_0 =
    [((Id.blocks_float_to_complex_0, 0%nat), (Id.blocks_file_sink_0, 0%nat))] /\
  Id.class_of Id.blocks_file_sink_0 = Id.FileSink /\
  outgoing g Id.blocks_file_sink_0 = [] /\
  outgoing g Id.rfid_tag_decoder_0 =
    [((Id.rfid_tag_decoder_0, 1%nat), (Id.blocks_file_sink_1, 0%nat));
     ((Id.rfid_tag_decoder_0, 0%nat), (Id.rfid_reader_0, 0%nat))] /\
  incoming g Id.blocks_file_sink_1 =
    [((Id.rfid_tag_decoder_0, 1%nat), (Id.blocks_file_sink_1, 0%nat))] /\
  Id.class_of Id.blocks_file_sink_1 = Id.FileSink /\
  outgoing g Id.blocks_file_sink_1 = [].
Proof.
  intros Hr g. destruct (reachable_in_step self Hr) as (Hw & Hf & _).
  apply frozen_static in Hf.
  destruct Hf as (_ & _ & _ & Hd & _ & _ & Hsrc & _ & _).
  subst g. rewrite Hw, Hsrc, Hd. repeat split.
Qed.

Lemma file_backed_transceiver_started :
  reachable started /\
  outgoing (connections started) Id.blocks_file_source_0 =
    [((Id.blocks_file_source_0, 0%nat), (Id.fir_filter_xxx_0, 0%nat))].
Proof.
  split; [exact reachable_started |].
  destruct (file_backed_transceiver started reachable_started) as (_ & _ & _ & H & _).
  exact H.
Defined.

(** C10. Both file sinks are constructed on the one path
    [.../misc/data/file_sink], neither in append mode: the Reader's command
    waveform (through float-to-complex) and the TagDecoder's port 1 are
    written to the same file. *)
Theorem sinks_share_one_file (self : top_block) :
  reachable self ->
  let g := connections self in
  blocks_file_sink_0 (blks self) =
    {| sink_itemsize := 8; sink_filename := file_sink_path; sink_append := false;
       sink_unbuffered := false |} /\
  blocks_file_sink_1 (blks self) =
    {| sink_itemsize := 8; sink_filename := file_sink_path; sink_append := false;
       sink_unbuffered := false |} /\
  sink_filename (blocks_file_sink_0 (blks self)) =
    sink_filename (blocks_file_sink_1 (blks self)) /\
  incoming g Id.blocks_file_sink_0 =
    [((Id.blocks_float_to_complex_0, 0%nat), (Id.blocks_file_sink_0, 0%nat))] /\
  incoming g Id.blocks_file_sink_1 =
    [((Id.rfid_tag_decoder_0, 1%nat), (Id.blocks_file_sink_1, 0%nat))] /\
  downstream g Id.rfid_reader_0 Id.blocks_file_sink_0.
Proof.
  intros Hr g. destruct (reachable_in_step self Hr) as (Hw & Hf & _).
  apply frozen_static in Hf.
  destruct Hf as (_ & _ & _ & _ & _ & _ & _ & Hs1 & Hs0).
  subst g. rewrite Hw, Hs1, Hs0.
  repeat (split; [reflexivity |]).
  apply ds_next with (b := Id.blocks_multiply_const_vxx_0).
  { exists 0%nat, 0%nat. cbn. tauto. }
  apply ds_next with (b := Id.blocks_float_to_complex_0).
  { exists 0%nat, 0%nat. cbn. tauto. }
  apply ds_edge. exists 0%nat, 0%nat. cbn. tauto.
Qed.

Lemma sinks_share_one_file_started :
  reachable started /\
  sink_filename (blocks_file_sink_0 (blks started)) =
    sink_filename (blocks_file_sink_1 (blks started)).
Proof.
  split; [exact reachable_started |].
  destruct (sinks_share_one_file started reachable_started) as (_ & _ & H & _).
  exact H.
Defined.

(** C6. The Reader's output passes through the multiplier before the
    transmit-side sink; the multiplier's constant is the stored [ampl] from
    construction on, and [set_ampl(a)] returns having set both to [a]. *)
Theorem amplitude_scales_transmit (self : top_block) :
  reachable self ->
  let g := connections self in
  outgoing g Id.rfid_reader_0 =
    [((Id.rfid_reader_0, 0%nat), (Id.blocks_multiply_const_vxx_0, 0%nat))] /\
  incoming g Id.blocks_multiply_const_vxx_0 =
    [((Id.rfid_reader_0, 0%nat), (Id.blocks_multiply_const_vxx_0, 0%nat))] /\
  incoming g Id.blocks_float_to_complex_0 =
    [((Id.blocks_multiply_const_vxx_0, 0%nat), (Id.blocks_float_to_complex_0, 0%nat))] /\
  incoming g Id.blocks_file_sink_0 =
    [((Id.blocks_float_to_complex_0, 0%nat), (Id.blocks_file_sink_0, 0%nat))] /\
  k (blocks_multiply_const_vxx_0 (blks self)) = [ampl (vars self)] /\
  forall a : Py.num,
    exists self',
      set_ampl a self = (self', inr tt) /\
      ampl (vars self') = a /\
      k (blocks_multiply_const_vxx_0 (blks self')) = [a] /\
      reachable self'.
Proof.
  intros Hr g. destruct (reachable_in_step self Hr) as (Hw & _ & _ & Hk).
  subst g. rewrite Hw, Hk.
  repeat (split; [reflexivity |]).
  intros a. eexists. rewrite set_ampl_eq.
  split; [reflexivity |]. split; [reflexivity |]. split; [reflexivity |].
  exact (reach_call self (Set_ampl a) Hr).
Qed.

Lemma amplitude_scales_transmit_started :
  reachable started /\
  k (blocks_multiply_const_vxx_0 (blks started)) = [Py.Float (Py.lit 1 (-1))].
Proof.
  split; [exact reachable_started |].
  destruct (amplitude_scales_transmit started reachable_started) as (_ & _ & _ & _ & H & _).
  exact H.
Defined.

(** ** Construction *)

Lemma build_inv (c : config) (self : top_block) :
  build c = inr self ->
  exists taps r d,
    tap_vector (cfg_adc_rate c) (cfg_blf c) = inr taps /\
    effective_rate (cfg_adc_rate c) (cfg_decim c) = inr r /\
    Py.int (cfg_dac_rate c) = inr d /\
    num_taps (vars self) = taps /\
    fir_taps (fir_filter_xxx_0 (blks self)) = taps /\
    td_sample_rate (rfid_tag_decoder_0 (blks self)) = r /\
    rd_sample_rate (rfid_reader_0 (blks self)) = r /\
    rd_dac_rate (rfid_reader_0 (blks self)) = d /\
    gate_sample_rate (rfid_gate_0 (blks self)) = r.
Proof.
  unfold build, Py.bind, Py.ret.
  destruct (tap_vector (cfg_adc_rate c) (cfg_blf c)) as [e | taps]; [discriminate |].
  destruct (effective_rate (cfg_adc_rate c) (cfg_decim c)) as [e | r]; [discriminate |].
  destruct (Py.int (cfg_dac_rate c)) as [e | d]; [discriminate |].
  intros H. injection H as <-.
  exists taps, r, d. repeat split.
Qed.

Lemma build_total (c : config) (taps : list Py.num) (r d : Z) :
  tap_vector (cfg_adc_rate c) (cfg_blf c) = inr taps ->
  effective_rate (cfg_adc_rate c) (cfg_decim c) = inr r ->
  Py.int (cfg_dac_rate c) = inr d ->
  exists self, build c = inr self.
Proof.
  intros Ht Hr Hd. unfold build, Py.bind, Py.ret.
  rewrite Ht, Hr, Hd. eexists. reflexivity.
Qed.

Lemma effective_rate_inv (a d : Py.num) (r : Z) :
  effective_rate a d = inr r ->
  exists q, Py.div a d = inr q /\ Py.int q = inr r.
Proof.
  unfold effective_rate, Py.bind.
  destruct (Py.div a d) as [e | q]; [discriminate |].
  intros H. exists q. split; [reflexivity | exact H].
Qed.

(** C3. Whatever the variable values, a flow graph that is constructed has
    its Gate, TagDecoder and Reader configured with [int(adc_rate/decim)];
    with the shipped values construction succeeds, that rate is 400000, and
    both [adc_rate/decim] and [blf * 10] are the double 400000.0, [blf]
    being [40e3]. *)
Theorem effective_rate_at_construction :
  (forall (c : config) (self : top_block),
      build c = inr self ->
      exists (q : Py.num) (r : Z),
        Py.div (cfg_adc_rate c) (cfg_decim c) = inr q /\
        Py.int q = inr r /\
        gate_sample_rate (rfid_gate_0 (blks self)) = r /\
        td_sample_rate (rfid_tag_decoder_0 (blks self)) = r /\
        rd_sample_rate (rfid_reader_0 (blks self)) = r) /\
  __init__ = inr started /\
  adc_rate (vars started) = Py.Float (Py.lit 2000000 0) /\
  decim (vars started) = Py.Int 5 /\
  blf (vars started) = Py.Float (Py.lit 40000 0) /\
  gate_sample_rate (rfid_gate_0 (blks started)) = 400000 /\
  td_sample_rate (rfid_tag_decoder_0 (blks started)) = 400000 /\
  rd_sample_rate (rfid_reader_0 (blks started)) = 400000 /\
  Py.div (adc_rate (vars started)) (decim (vars started)) =
    inr (Py.Float (Py.lit 400000 0)) /\
  Py.mul (blf (vars started)) (Py.Int 10) = inr (Py.Float (Py.lit 400000 0)) /\
  Py.int (Py.Float (Py.lit 400000 0)) = inr 400000.
Proof.
  split.
  - intros c self H.
    destruct (build_inv c self H) as (taps & r & d & _ & Hr & _ & _ & _ & Htd & Hrd & _ & Hg).
    destruct (effective_rate_inv _ _ _ Hr) as (q & Hq & Hi).
    exists q, r. repeat split; assumption.
  - split; [exact init_started |].
    repeat split; vm_compute; reflexivity.
Qed.

Lemma effective_rate_at_construction_shipped :
  build shipped_config = inr started /\
  exists (q : Py.num) (r : Z),
    Py.div (cfg_adc_rate shipped_config) (cfg_decim shipped_config) = inr q /\
    Py.int q = inr r /\
    gate_sample_rate (rfid_gate_0 (blks started)) = r /\
    td_sample_rate (rfid_tag_decoder_0 (blks started)) = r /\
    rd_sample_rate (rfid_reader_0 (blks started)) = r.
Proof.
  split; [exact build_shipped |].
  exact (proj1 effective_rate_at_construction shipped_config started build_shipped).
Defined.

(** ** Filter taps and the base parameters *)

Lemma set_blf_retunes : retunes_filter set_blf.
Proof.
  intros v self self'. rewrite set_blf_eq.
  destruct (tap_vector (adc_rate (vars self)) v) as [e | taps] eqn:E.
  - discriminate.
  - rewrite set_num_taps_eq. intros H. injection H as <-.
    split; [exact E | reflexivity].
Qed.

Lemma set_adc_rate_retunes : retunes_filter set_adc_rate.
Proof.
  intros v self self'. rewrite set_adc_rate_eq.
  destruct (tap_vector v (blf (vars self))) as [e | taps] eqn:E.
  - discriminate.
  - rewrite set_num_taps_eq. intros H. injection H as <-.
    split; [exact E | reflexivity].
Qed.

(** C1, as the code has it.  [set_blf] and [set_adc_rate] recompute the tap
    vector from the stored [adc_rate] and [blf] and hand it to the FIR
    filter through [set_num_taps], returning whenever that computation does
    not raise; [set_decim] returns having stored the new factor only: the
    tap vector and the filter are as before. *)
Theorem taps_follow_blf_and_adc_rate :
  retunes_filter set_blf /\
  retunes_filter set_adc_rate /\
  (forall (v : Py.num) (self : top_block) (taps : list Py.num),
      tap_vector (adc_rate (vars self)) v = inr taps ->
      exists self',
        set_blf v self = (self', inr tt) /\
        blf (vars self') = v /\
        num_taps (vars self') = taps /\
        fir_taps (fir_filter_xxx_0 (blks self')) = taps) /\
  (forall (v : Py.num) (self : top_block) (taps : list Py.num),
      tap_vector v (blf (vars self)) = inr taps ->
      exists self',
        set_adc_rate v self = (self', inr tt) /\
        adc_rate (vars self') = v /\
        num_taps (vars self') = taps /\
        fir_taps (fir_filter_xxx_0 (blks self')) = taps) /\
  (forall (d : Py.num) (self : top_block),
      exists self',
        set_decim d self = (self', inr tt) /\
        decim (vars self') = d /\
        num_taps (vars self') = num_taps (vars self) /\
        fir_filter_xxx_0 (blks self') = fir_filter_xxx_0 (blks self)).
Proof.
  split; [exact set_blf_retunes |].
  split; [exact set_adc_rate_retunes |].
  split; [| split].
  - intros v self taps H. eexists. rewrite set_blf_eq, H, set_num_taps_eq.
    repeat split.
  - intros v self taps H. eexists. rewrite set_adc_rate_eq, H, set_num_taps_eq.
    repeat split.
  - intros d self. eexists. repeat split.
Qed.

(** Halving [blf] to [20e3] on the constructed object doubles the taps. *)
Lemma taps_follow_blf_started :
  tap_vector (adc_rate (vars started)) (Py.Float (Py.lit 20000 0)) =
    inr (Py.copies 50 [Py.Int 1]) /\
  exists self',
    set_blf (Py.Float (Py.lit 20000 0)) started = (self', inr tt) /\
    blf (vars self') = Py.Float (Py.lit 20000 0) /\
    num_taps (vars self') = Py.copies 50 [Py.Int 1] /\
    fir_taps (fir_filter_xxx_0 (blks self')) = Py.copies 50 [Py.Int 1].
Proof.
  assert (H : tap_vector (adc_rate (vars started)) (Py.Float (Py.lit 20000 0)) =
              inr (Py.copies 50 [Py.Int 1])) by (vm_compute; reflexivity).
  split; [exact H |].
  exact (proj1 (proj2 (proj2 taps_follow_blf_and_adc_rate)) _ started _ H).
Defined.

(** C1, as stated, fails: after [set_num_taps([1, 1])] on the constructed
    object, [set_decim(10)] returns with the two taps still in place, not
    the 25 that [adc_rate] and [blf] give. *)
Lemma set_decim_does_not_retune :
  ~ (retunes_filter set_blf /\ retunes_filter set_adc_rate /\ retunes_filter set_decim).
Proof.
  intros (_ & _ & H).
  destruct (H (Py.Int 10) (fst (set_num_taps [Py.Int 1; Py.Int 1] started)) _ eq_refl)
    as [H1 _].
  vm_compute in H1. discriminate H1.
Qed.

(** ** Tap count *)

Lemma length_copies_singleton {A} (n : nat) (x : A) : List.length (Py.copies n [x]) = n.
Proof.
  induction n as [| n IH]; cbn [Py.copies app List.length]; [reflexivity | now rewrite IH].
Qed.

Lemma tap_vector_inv (a b : Py.num) (taps : list Py.num) :
  tap_vector a b = inr taps ->
  exists n : Z,
    tap_count a b = inr n /\ - Py.maxsize - 1 <= n <= Py.maxsize /\
    taps = Py.copies (Z.to_nat n) [Py.Int 1].
Proof.
  unfold tap_vector, Py.bind, Py.list_mul, Py.raise, Py.ret.
  destruct (tap_count a b) as [e | n]; [discriminate |].
  destruct (Z.ltb_spec n (- Py.maxsize - 1)) as [Hlo | Hlo]; [discriminate |].
  destruct (Z.ltb_spec Py.maxsize n) as [Hhi | Hhi]; [discriminate |].
  cbn [orb]. intros H. injection H as <-. exists n. repeat split; assumption.
Qed.

(** C2, as the code has it.  The tap vector of a constructed flow graph is
    [int(adc_rate/blf * 0.5)] ones (none when that is negative): its length
    is fixed by [adc_rate] and [blf], and two configurations that agree on
    those two, whatever their decimation factors, have the same taps. *)
Theorem tap_count_from_adc_rate_and_blf (c : config) (self : top_block) :
  build c = inr self ->
  (exists n : Z,
      tap_count (cfg_adc_rate c) (cfg_blf c) = inr n /\
      num_taps (vars self) = Py.copies (Z.to_nat n) [Py.Int 1] /\
      List.length (num_taps (vars self)) = Z.to_nat n /\
      fir_taps (fir_filter_xxx_0 (blks self)) = num_taps (vars self)) /\
  (forall (c' : config) (self' : top_block),
      cfg_adc_rate c' = cfg_adc_rate c ->
      cfg_blf c' = cfg_blf c ->
      build c' = inr self' ->
      num_taps (vars self') = num_taps (vars self)) /\
  (forall (d : Py.num) (self' : top_block),
      build (with_cfg_decim d c) = inr self' ->
      num_taps (vars self') = num_taps (vars self)).
Proof.
  intros H.
  destruct (build_inv c self H) as (taps & r & d & Ht & _ & _ & Hn & Hf & _).
  assert (Hsame : forall c' self',
             cfg_adc_rate c' = cfg_adc_rate c -> cfg_blf c' = cfg_blf c ->
             build c' = inr self' -> num_taps (vars self') = num_taps (vars self)).
  { intros c' self' Ha Hb H'.
    destruct (build_inv c' self' H') as (taps' & _ & _ & Ht' & _ & _ & Hn' & _).
    rewrite Ha, Hb, Ht in Ht'. injection Ht' as <-. now rewrite Hn, Hn'. }
  split; [| split].
  - destruct (tap_vector_inv _ _ _ Ht) as (n & Hc & _ & ->).
    exists n. rewrite Hn, Hf.
    split; [exact Hc |]. split; [reflexivity |]. split; [| reflexivity].
    apply length_copies_singleton.
  - exact Hsame.
  - intros d' self' H'. exact (Hsame (with_cfg_decim d' c) self' eq_refl eq_refl H').
Qed.

Lemma tap_count_shipped :
  build shipped_config = inr started /\
  forall (d : Py.num) (self' : top_block),
    build (with_cfg_decim d shipped_config) = inr self' ->
    num_taps (vars self') = num_taps (vars started).
Proof.
  split; [exact build_shipped |].
  exact (proj2 (proj2 (tap_count_from_adc_rate_and_blf shipped_config started build_shipped))).
Defined.

(** C2, as stated, fails: the shipped configuration and the one with the
    decimation factor changed from 5 to 10 both give 25 taps. *)
Lemma decim_does_not_change_tap_count :
  ~ (forall (c : config) (d : Py.num) (self self' : top_block),
        cfg_decim c <> d ->
        build c = inr self ->
        build (with_cfg_decim d c) = inr self' ->
        List.length (num_taps (vars self)) <> List.length (num_taps (vars self'))).
Proof.
  intros H.
  assert (H10 : exists self', build (with_cfg_decim (Py.Int 10) shipped_config) = inr self' /\
                              List.length (num_taps (vars self')) = 25%nat).
  { eexists. split; vm_compute; reflexivity. }
  destruct H10 as (self' & Hb & Hl).
  apply (H shipped_config (Py.Int 10) started self').
  - discriminate.
  - exact build_shipped.
  - exact Hb.
  - rewrite Hl. reflexivity.
Qed.

(** ** Construction failures *)

Lemma detuned_not_consistent : ~ consistent detuned_config.
Proof.
  intros (a & d & b & sps & Ha & Hd & Hb & _ & Hpos & Heq).
  vm_compute in Ha, Hd, Hb.
  injection Ha as <-. injection Hd as <-. injection Hb as <-.
  unfold Qeq, Qdiv, Qmult, Qinv, inject_Z, Qnum, Qden in Heq.
  rewrite !Pos2Z.inj_mul in Heq. lia.
Qed.

Lemma shipped_consistent : consistent shipped_config.
Proof.
  exists (Qmake 8589934592000000 4294967296), (inject_Z 5),
         (Qmake 5497558138880000 137438953472), 10.
  repeat split; try (vm_compute; reflexivity); try discriminate.
Qed.

Lemma div_by_int_zero (a : Py.num) : Py.div a (Py.Int 0) = inl Py.ZeroDivisionError.
Proof.
  destruct a as [z | f]; [reflexivity |].
  unfold Py.div, Py.to_float, Py.bind, Py.ret.
  change (Py.float_of_int 0) with (@inr Py.exn _ (S754_zero false)).
  reflexivity.
Qed.

Lemma zero_decim_raises (c : config) :
  cfg_decim c = Py.Int 0 -> exists e, build c = inl e.
Proof.
  intros Hd. unfold build, Py.bind.
  destruct (tap_vector (cfg_adc_rate c) (cfg_blf c)) as [e | taps]; [now exists e |].
  rewrite Hd. unfold effective_rate, Py.bind.
  rewrite div_by_int_zero. eexists. reflexivity.
Qed.

(** C7, as the code has it.  Construction makes no check of the
    rate/decimation relationship: it returns exactly when its three
    conversions (the tap vector, [int(adc_rate/decim)], [int(dac_rate)])
    return, for a consistent configuration such as the shipped one and for
    an inconsistent one such as decimation 3 alike; a zero decimation factor
    makes it raise. *)
Theorem construction_checks_no_consistency :
  (forall c : config,
      (exists self, build c = inr self) <->
      (exists (taps : list Py.num) (r d : Z),
          tap_vector (cfg_adc_rate c) (cfg_blf c) = inr taps /\
          effective_rate (cfg_adc_rate c) (cfg_decim c) = inr r /\
          Py.int (cfg_dac_rate c) = inr d)) /\
  (consistent shipped_config /\ build shipped_config = inr started) /\
  (~ consistent detuned_config /\
   exists self,
     build detuned_config = inr self /\
     gate_sample_rate (rfid_gate_0 (blks self)) = 666666 /\
     List.length (num_taps (vars self)) = 25%nat) /\
  (forall c : config, cfg_decim c = Py.Int 0 -> exists e, build c = inl e) /\
  build (with_cfg_decim (Py.Int 0) shipped_config) = inl Py.ZeroDivisionError.
Proof.
  split; [| split; [| split; [| split]]].
  - intros c. split.
    + intros (self & H).
      destruct (build_inv c self H) as (taps & r & d & Ht & Hr & Hd & _).
      exists taps, r, d. repeat split; assumption.
    + intros (taps & r & d & Ht & Hr & Hd). exact (build_total c taps r d Ht Hr Hd).
  - split; [exact shipped_consistent | exact build_shipped].
  - split; [exact detuned_not_consistent |].
    eexists. split; [vm_compute; reflexivity |].
    split; vm_compute; reflexivity.
  - exact zero_decim_raises.
  - vm_compute. reflexivity.
Qed.

Lemma construction_zero_decim :
  cfg_decim (with_cfg_decim (Py.Int 0) shipped_config) = Py.Int 0 /\
  exists e, build (with_cfg_decim (Py.Int 0) shipped_config) = inl e.
Proof.
  split; [reflexivity |].
  exact (proj1 (proj2 (proj2 (proj2 construction_checks_no_consistency)))
           (with_cfg_decim (Py.Int 0) shipped_config) eq_refl).
Defined.

(** C7, as stated, fails: with the decimation factor 3 the rate
    [adc_rate/decim] is no integer multiple of [blf], and construction
    returns a flow graph. *)
Lemma inconsistent_configuration_is_built :
  ~ (forall c : config, ~ consistent c -> exists e, build c = inl e).
Proof.
  intros H.
  destruct (H detuned_config detuned_not_consistent) as (e & He).
  vm_compute in He. discriminate He.
Qed.

(** ** Setters that only store *)

Ltac frame_setter :=
  intros v self; eexists;
  split; [reflexivity |];
  split; [reflexivity |];
  split; [| split; reflexivity];
  let y := fresh "y" in
  let Hy := fresh "Hy" in
  intros y Hy; destruct y; first [reflexivity | contradiction Hy; reflexivity].

Lemma set_freq_frame : only_assigns Freq set_freq.
Proof. frame_setter. Qed.

Lemma set_tx_gain_frame : only_assigns Tx_gain set_tx_gain.
Proof. frame_setter. Qed.

Lemma set_rx_gain_frame : only_assigns Rx_gain set_rx_gain.
Proof. frame_setter. Qed.

Lemma set_samp_rate_frame : only_assigns Samp_rate set_samp_rate.
Proof. frame_setter. Qed.

Lemma set_dac_rate_frame : only_assigns Dac_rate set_dac_rate.
Proof. frame_setter. Qed.

Lemma set_decim_frame : only_assigns Decim set_decim.
Proof. frame_setter. Qed.

(** C8. [set_freq], [set_tx_gain], [set_rx_gain], [set_samp_rate],
    [set_dac_rate] and [set_decim] return having assigned their own
    variable: every other variable, every block (filter taps, multiplier
    constant, block rates) and the connections are unchanged. *)
Theorem plain_setters_touch_nothing_else :
  only_assigns Freq set_freq /\
  only_assigns Tx_gain set_tx_gain /\
  only_assigns Rx_gain set_rx_gain /\
  only_assigns Samp_rate set_samp_rate /\
  only_assigns Dac_rate set_dac_rate /\
  only_assigns Decim set_decim.
Proof.
  split; [exact set_freq_frame |].
  split; [exact set_tx_gain_frame |].
  split; [exact set_rx_gain_frame |].
  split; [exact set_samp_rate_frame |].
  split; [exact set_dac_rate_frame |].
  exact set_decim_frame.
Qed.

(** On the constructed object [set_decim(10)] leaves the filter decimating
    by 5 and the three block rates at 400000. *)
Lemma plain_setters_started :
  exists self',
    set_decim (Py.Int 10) started = (self', inr tt) /\
    getattr Decim self' = inl (Py.Int 10) /\
    (forall y, y <> Decim -> getattr y self' = getattr y started) /\
    blks self' = blks started /\
    connections self' = connections started.
Proof.
  exact (proj2 (proj2 (proj2 (proj2 (proj2 plain_setters_touch_nothing_else))))
           (Py.Int 10) started).
Defined.

(** ** Accessors *)

(** C9. For each of the ten variables and every value [v], the object left
    by [set_X(v)], whether the call returned or raised, answers [get_X()]
    with [v]; the getter changes nothing; and [set_X(v); get_X()] run in
    sequence returns [v] whenever the setter returns, which the eight
    setters other than [set_blf] and [set_adc_rate] always do. *)
Theorem setter_getter_round_trip (self : top_block) :
  (forall v, get_blf (fst (set_blf v self)) = (fst (set_blf v self), inr v)) /\
  (forall v, get_adc_rate (fst (set_adc_rate v self)) = (fst (set_adc_rate v self), inr v)) /\
  (forall v, get_tx_gain (fst (set_tx_gain v self)) = (fst (set_tx_gain v self), inr v)) /\
  (forall v, get_samp_rate (fst (set_samp_rate v self)) = (fst (set_samp_rate v self), inr v)) /\
  (forall v, get_rx_gain (fst (set_rx_gain v self)) = (fst (set_rx_gain v self), inr v)) /\
  (forall v, get_num_taps (fst (set_num_taps v self)) = (fst (set_num_taps v self), inr v)) /\
  (forall v, get_freq (fst (set_freq v self)) = (fst (set_freq v self), inr v)) /\
  (forall v, get_decim (fst (set_decim v self)) = (fst (set_decim v self), inr v)) /\
  (forall v, get_dac_rate (fst (set_dac_rate v self)) = (fst (set_dac_rate v self), inr v)) /\
  (forall v, get_ampl (fst (set_ampl v self)) = (fst (set_ampl v self), inr v)) /\
  (forall v, snd (set_blf v self) = inr tt ->
             snd ((set_blf v ;;; get_blf) self) = inr v) /\
  (forall v, snd (set_adc_rate v self) = inr tt ->
             snd ((set_adc_rate v ;;; get_adc_rate) self) = inr v) /\
  (forall v, snd ((set_tx_gain v ;;; get_tx_gain) self) = inr v) /\
  (forall v, snd ((set_samp_rate v ;;; get_samp_rate) self) = inr v) /\
  (forall v, snd ((set_rx_gain v ;;; get_rx_gain) self) = inr v) /\
  (forall v, snd ((set_num_taps v ;;; get_num_taps) self) = inr v) /\
  (forall v, snd ((set_freq v ;;; get_freq) self) = inr v) /\
  (forall v, snd ((set_decim v ;;; get_decim) self) = inr v) /\
  (forall v, snd ((set_dac_rate v ;;; get_dac_rate) self) = inr v) /\
  (forall v, snd ((set_ampl v ;;; get_ampl) self) = inr v).
Proof.
  assert (Hblf : forall v, blf (vars (fst (set_blf v self))) = v).
  { intros v. rewrite set_blf_eq.
    destruct (tap_vector (adc_rate (vars self)) v); reflexivity. }
  assert (Hadc : forall v, adc_rate (vars (fst (set_adc_rate v self))) = v).
  { intros v. rewrite set_adc_rate_eq.
    destruct (tap_vector v (blf (vars self))); reflexivity. }
  split; [intros v; unfold get_blf, read; now rewrite Hblf |].
  split; [intros v; unfold get_adc_rate, read; now rewrite Hadc |].
  do 8 (split; [reflexivity |]).
  split.
  { intros v Hok. unfold mbind. specialize (Hblf v).
    destruct (set_blf v self) as [self' [e | []]]; [discriminate Hok |].
    cbn in *. now rewrite Hblf. }
  split.
  { intros v Hok. unfold mbind. specialize (Hadc v).
    destruct (set_adc_rate v self) as [self' [e | []]]; [discriminate Hok |].
    cbn in *. now rewrite Hadc. }
  repeat split.
Qed.

Lemma setter_getter_round_trip_started :
  snd (set_blf (Py.Float (Py.lit 20000 0)) started) = inr tt /\
  snd ((set_blf (Py.Float (Py.lit 20000 0)) ;;; get_blf) started) =
    inr (Py.Float (Py.lit 20000 0)).
Proof.
  assert (H : snd (set_blf (Py.Float (Py.lit 20000 0)) started) = inr tt)
    by (vm_compute; reflexivity).
  split; [exact H |].
  destruct (setter_getter_round_trip started)
    as (_ & _ & _ & _ & _ & _ & _ & _ & _ & _ & Hseq & _).
  exact (Hseq (Py.Float (Py.lit 20000 0)) H).
Defined.

(** [set_blf(0)] raises after the assignment: the stored [blf] is 0 and the
    taps are the old ones. *)
Lemma set_blf_zero_raises :
  snd (set_blf (Py.Int 0) started) = inl Py.ZeroDivisionError /\
  snd (get_blf (fst (set_blf (Py.Int 0) started))) = inr (Py.Int 0) /\
  num_taps (vars (fst (set_blf (Py.Int 0) started))) = num_taps (vars started).
Proof. repeat split; vm_compute; reflexivity. Qed.

(** * Further properties of the methods *)

(** ** Invariants over call sequences *)

(** X1. After construction and any sequence of setter calls, returned or
    raised, the FIR filter holds exactly the stored [num_taps]. *)
Theorem filter_holds_stored_taps (self : top_block) :
  reachable self ->
  fir_taps (fir_filter_xxx_0 (blks self)) = num_taps (vars self).
Proof.
  intros Hr. destruct (reachable_in_step self Hr) as (_ & _ & Ht & _). exact Ht.
Qed.

Lemma reachable_drifted : reachable drifted.
Proof. exact (reach_call started (Set_adc_rate (Py.Float (Py.lit 4000000 0))) reachable_started). Qed.

Lemma filter_holds_stored_taps_drifted :
  reachable drifted /\
  fir_taps (fir_filter_xxx_0 (blks drifted)) = Py.copies 50 [Py.Int 1].
Proof.
  split; [exact reachable_drifted |].
  rewrite (filter_holds_stored_taps drifted reachable_drifted).
  vm_compute. reflexivity.
Defined.

(** X2. No setter re-rates a block: whatever is stored in [adc_rate],
    [decim] and [dac_rate] later, the Gate, the TagDecoder and the Reader
    keep the sample rate 400000, the Reader the DAC rate 1000000, and the
    FIR filter the decimation 5 they were constructed with. *)
Theorem block_rates_never_change (self : top_block) :
  reachable self ->
  gate_sample_rate (rfid_gate_0 (blks self)) = 400000 /\
  td_sample_rate (rfid_tag_decoder_0 (blks self)) = 400000 /\
  rd_sample_rate (rfid_reader_0 (blks self)) = 400000 /\
  rd_dac_rate (rfid_reader_0 (blks self)) = 1000000 /\
  fir_decimation (fir_filter_xxx_0 (blks self)) = Py.Int 5 /\
  fir_sample_delay (fir_filter_xxx_0 (blks self)) = 0.
Proof.
  intros Hr. destruct (reachable_in_step self Hr) as (_ & Hf & _).
  apply frozen_static in Hf.
  destruct Hf as (Htd & Hrd & Hg & Hd & Hs & _).
  rewrite Htd, Hrd, Hg, Hd, Hs. repeat split.
Qed.

(** After [set_adc_rate(4e6)] the stored values give 800000, the blocks
    still run at 400000. *)
Lemma block_rates_drifted :
  reachable drifted /\
  effective_rate (adc_rate (vars drifted)) (decim (vars drifted)) = inr 800000 /\
  gate_sample_rate (rfid_gate_0 (blks drifted)) = 400000.
Proof.
  split; [exact reachable_drifted |].
  split; [vm_compute; reflexivity |].
  exact (proj1 (block_rates_never_change drifted reachable_drifted)).
Defined.

(** ** Footprints *)

Ltac step_setters :=
  cbn [invoke];
  rewrite ?set_blf_eq, ?set_adc_rate_eq, ?set_num_taps_eq, ?set_ampl_eq;
  cbn [set_tx_gain set_samp_rate set_rx_gain set_freq set_decim set_dac_rate modify
       fst snd assign on_blocks vars blks connections
       with_blf with_adc_rate with_tx_gain with_samp_rate with_rx_gain with_num_taps
       with_freq with_decim with_dac_rate with_ampl
       blf adc_rate tx_gain samp_rate rx_gain num_taps freq decim dac_rate ampl].

(** X3. Only [set_blf] and [set_adc_rate] can raise; a call that raises has
    assigned its own variable and nothing else: every other variable, the
    tap vector included, every block and the connections are as before. *)
Theorem raising_call_footprint (c : call) (self : top_block) (e : Py.exn) :
  snd (invoke c self) = inl e ->
  (target c = Blf \/ target c = Adc_rate) /\
  getattr (target c) (fst (invoke c self)) = argument c /\
  (forall y, y <> target c -> getattr y (fst (invoke c self)) = getattr y self) /\
  blks (fst (invoke c self)) = blks self /\
  connections (fst (invoke c self)) = connections self.
Proof.
  destruct c as [v|v|v|v|v|v|v|v|v|v]; step_setters; try discriminate.
  - destruct (tap_vector (adc_rate (vars self)) v) as [e' | taps]; [| discriminate].
    intros _. split; [now left |]. split; [reflexivity |].
    split; [| split; reflexivity].
    intros y Hy; destruct y; first [reflexivity | contradiction Hy; reflexivity].
  - destruct (tap_vector v (blf (vars self))) as [e' | taps]; [| discriminate].
    intros _. split; [now right |]. split; [reflexivity |].
    split; [| split; reflexivity].
    intros y Hy; destruct y; first [reflexivity | contradiction Hy; reflexivity].
Qed.

Lemma raising_call_started :
  snd (invoke (Set_blf (Py.Int 0)) started) = inl Py.ZeroDivisionError /\
  getattr Blf (fst (invoke (Set_blf (Py.Int 0)) started)) = inl (Py.Int 0) /\
  blks (fst (invoke (Set_blf (Py.Int 0)) started)) = blks started.
Proof.
  assert (H : snd (invoke (Set_blf (Py.Int 0)) started) = inl Py.ZeroDivisionError)
    by (vm_compute; reflexivity).
  split; [exact H |].
  destruct (raising_call_footprint _ started _ H) as (_ & Hv & _ & Hb & _).
  split; [exact Hv | exact Hb].
Defined.

(** X4. A setter call that returns has assigned its argument to its own
    variable; it leaves every other variable alone, except that the three
    calls ending in [set_num_taps] also replace [num_taps] and hand it to
    the filter; only [set_ampl] touches the multiplier, whose constant is
    then the new [ampl]; every other block parameter and the connections
    are unchanged. *)
Theorem returning_call_footprint (c : call) (self : top_block) :
  snd (invoke c self) = inr tt ->
  getattr (target c) (fst (invoke c self)) = argument c /\
  (forall y, y <> target c -> (tunes c = true -> y <> Num_taps) ->
             getattr y (fst (invoke c self)) = getattr y self) /\
  (tunes c = true ->
   fir_taps (fir_filter_xxx_0 (blks (fst (invoke c self)))) =
     num_taps (vars (fst (invoke c self)))) /\
  (tunes c = false ->
   fir_filter_xxx_0 (blks (fst (invoke c self))) = fir_filter_xxx_0 (blks self)) /\
  (target c = Ampl ->
   k (blocks_multiply_const_vxx_0 (blks (fst (invoke c self)))) =
     [ampl (vars (fst (invoke c self)))]) /\
  (target c <> Ampl ->
   blocks_multiply_const_vxx_0 (blks (fst (invoke c self))) =
     blocks_multiply_const_vxx_0 (blks self)) /\
  frozen (blks (fst (invoke c self))) = frozen (blks self) /\
  connections (fst (invoke c self)) = connections self.
Proof.
  destruct c as [v|v|v|v|v|v|v|v|v|v]; step_setters;
    try (destruct (tap_vector (adc_rate (vars self)) v); [discriminate |]);
    try (destruct (tap_vector v (blf (vars self))); [discriminate |]);
    intros _; step_setters;
    (split; [reflexivity |]);
    (split; [intros y Hy Ht; destruct y;
             first [reflexivity | contradiction Hy; reflexivity
                   | contradiction (Ht eq_refl); reflexivity] |]);
    cbn [target tunes];
    repeat split; intros; first [reflexivity | discriminate | congruence].
Qed.

Lemma returning_call_started :
  snd (invoke (Set_ampl (Py.Int 1)) started) = inr tt /\
  getattr Ampl (fst (invoke (Set_ampl (Py.Int 1)) started)) = inl (Py.Int 1) /\
  fir_filter_xxx_0 (blks (fst (invoke (Set_ampl (Py.Int 1)) started))) =
    fir_filter_xxx_0 (blks started).
Proof.
  assert (H : snd (invoke (Set_ampl (Py.Int 1)) started) = inr tt) by reflexivity.
  split; [exact H |].
  destruct (returning_call_footprint _ started H) as (Hv & _ & _ & Hf & _).
  split; [exact Hv | exact (Hf eq_refl)].
Defined.

(** ** Composition of setter calls *)

(** X5. Two setter calls on different variables that do not both write the
    taps commute: the object is the same after both in either order, and
    each call returns or raises as it would have alone. *)
Theorem independent_calls_commute (c1 c2 : call) (self : top_block) :
  independent c1 c2 = true ->
  fst (invoke c2 (fst (invoke c1 self))) = fst (invoke c1 (fst (invoke c2 self))) /\
  snd (invoke c1 (fst (invoke c2 self))) = snd (invoke c1 self) /\
  snd (invoke c2 (fst (invoke c1 self))) = snd (invoke c2 self).
Proof.
  destruct c1 as [v|v|v|v|v|v|v|v|v|v], c2 as [w|w|w|w|w|w|w|w|w|w];
    cbn [independent target tunes var_eqb negb andb]; try discriminate; intros _;
    step_setters;
    repeat match goal with
           | |- context [tap_vector ?a ?b] => destruct (tap_vector a b); step_setters
           end;
    repeat split.
Qed.

Lemma independent_calls_started :
  independent (Set_blf (Py.Float (Py.lit 20000 0))) (Set_decim (Py.Int 10)) = true /\
  fst (invoke (Set_decim (Py.Int 10))
         (fst (invoke (Set_blf (Py.Float (Py.lit 20000 0))) started))) =
  fst (invoke (Set_blf (Py.Float (Py.lit 20000 0)))
         (fst (invoke (Set_decim (Py.Int 10)) started))).
Proof.
  split; [reflexivity |].
  exact (proj1 (independent_calls_commute
                  (Set_blf (Py.Float (Py.lit 20000 0))) (Set_decim (Py.Int 10))
                  started eq_refl)).
Defined.

(** X6. The last call wins: a call of a setter that returns on the object
    gives the same object and result when an earlier call of the same
    setter, returned or raised, came first. *)
Theorem last_call_wins (c1 c2 : call) (self : top_block) :
  var_eqb (target c1) (target c2) = true ->
  snd (invoke c2 self) = inr tt ->
  invoke c2 (fst (invoke c1 self)) = invoke c2 self.
Proof.
  destruct c1 as [v|v|v|v|v|v|v|v|v|v], c2 as [w|w|w|w|w|w|w|w|w|w];
    cbn [target var_eqb]; try discriminate; intros _;
    step_setters; try reflexivity; intros H.
  - destruct (tap_vector (adc_rate (vars self)) v); step_setters;
      (destruct (tap_vector (adc_rate (vars self)) w); [discriminate H | reflexivity]).
  - destruct (tap_vector v (blf (vars self))); step_setters;
      (destruct (tap_vector w (blf (vars self))); [discriminate H | reflexivity]).
Qed.

Lemma last_call_started :
  snd (invoke (Set_blf (Py.Float (Py.lit 20000 0))) started) = inr tt /\
  invoke (Set_blf (Py.Float (Py.lit 20000 0)))
    (fst (invoke (Set_blf (Py.Int 0)) started)) =
  invoke (Set_blf (Py.Float (Py.lit 20000 0))) started.
Proof.
  assert (H : snd (invoke (Set_blf (Py.Float (Py.lit 20000 0))) started) = inr tt)
    by (vm_compute; reflexivity).
  split; [exact H |].
  exact (last_call_wins (Set_blf (Py.Int 0)) (Set_blf (Py.Float (Py.lit 20000 0)))
           started eq_refl H).
Defined.

(** X7. When the taps for the new pair [(adc_rate, blf)] can be computed,
    [set_blf] and [set_adc_rate] may be called in either order, whether or
    not the first call raised on the intermediate pair: the second call
    returns, and the object and its taps are the same. *)
Theorem blf_and_adc_rate_in_either_order (a b : Py.num) (self : top_block) (taps : list Py.num) :
  tap_vector a b = inr taps ->
  set_adc_rate a (fst (set_blf b self)) = set_blf b (fst (set_adc_rate a self)) /\
  snd (set_adc_rate a (fst (set_blf b self))) = inr tt /\
  num_taps (vars (fst (set_adc_rate a (fst (set_blf b self))))) = taps.
Proof.
  intros H. rewrite (set_blf_eq b self), (set_adc_rate_eq a self).
  destruct (tap_vector (adc_rate (vars self)) b), (tap_vector a (blf (vars self)));
    rewrite ?set_num_taps_eq; cbn [fst];
    rewrite set_blf_eq, set_adc_rate_eq;
    cbn [assign on_blocks vars with_blf with_adc_rate with_num_taps blf adc_rate];
    rewrite H; repeat split.
Qed.

Lemma blf_and_adc_rate_started :
  tap_vector (Py.Float (Py.lit 4000000 0)) (Py.Float (Py.lit 20000 0)) =
    inr (Py.copies 100 [Py.Int 1]) /\
  num_taps (vars (fst (set_adc_rate (Py.Float (Py.lit 4000000 0))
                         (fst (set_blf (Py.Float (Py.lit 20000 0)) started))))) =
    Py.copies 100 [Py.Int 1].
Proof.
  assert (H : tap_vector (Py.Float (Py.lit 4000000 0)) (Py.Float (Py.lit 20000 0)) =
              inr (Py.copies 100 [Py.Int 1])) by (vm_compute; reflexivity).
  split; [exact H |].
  exact (proj2 (proj2 (blf_and_adc_rate_in_either_order _ _ started _ H))).
Defined.

(** ** Zero rates *)

Lemma div_by_zero (a b : Py.num) (f : spec_float) :
  zero b = true -> Py.to_float a = inr f -> Py.div a b = inl Py.ZeroDivisionError.
Proof.
  intros Hz Ha. destruct b as [z | g]; cbn [zero] in Hz.
  - apply Z.eqb_eq in Hz. subst z. apply div_by_int_zero.
  - destruct g; try discriminate Hz.
    unfold Py.div.
    assert (E : Py.bind (Py.to_float a)
                  (fun fa => Py.bind (Py.to_float (Py.Float (S754_zero s)))
                     (fun fb => Py.bind (Py.float_div fa fb)
                                  (fun q => Py.ret (Py.Float q)))) =
                inl Py.ZeroDivisionError).
    { rewrite Ha. reflexivity. }
    destruct a; exact E.
Qed.

(** X8. [set_blf] with a zero ([0], [0.0] or [-0.0]) raises
    [ZeroDivisionError] after storing it, the taps untouched; from then on
    every [set_adc_rate] raises [ZeroDivisionError] as well. *)
Theorem zero_blf_stops_retuning (z : Py.num) (self : top_block) (f : spec_float) :
  zero z = true ->
  Py.to_float (adc_rate (vars self)) = inr f ->
  snd (set_blf z self) = inl Py.ZeroDivisionError /\
  blf (vars (fst (set_blf z self))) = z /\
  num_taps (vars (fst (set_blf z self))) = num_taps (vars self) /\
  forall (v : Py.num) (g : spec_float),
    Py.to_float v = inr g ->
    snd (set_adc_rate v (fst (set_blf z self))) = inl Py.ZeroDivisionError.
Proof.
  intros Hz Ha.
  assert (Hraise : forall a g, Py.to_float a = inr g -> tap_vector a z = inl Py.ZeroDivisionError).
  { intros a g Hg. unfold tap_vector, tap_count, Py.bind.
    now rewrite (div_by_zero a z g Hz Hg). }
  rewrite set_blf_eq, (Hraise _ f Ha). repeat split.
  intros v g Hg. rewrite set_adc_rate_eq. cbn [fst assign vars with_blf blf].
  now rewrite (Hraise v g Hg).
Qed.

Lemma zero_blf_started :
  snd (set_blf (Py.Int 0) started) = inl Py.ZeroDivisionError /\
  snd (set_adc_rate (Py.Float (Py.lit 4000000 0)) (fst (set_blf (Py.Int 0) started))) =
    inl Py.ZeroDivisionError.
Proof.
  destruct (zero_blf_stops_retuning (Py.Int 0) started
              (S754_finite false 8589934592000000 (-32)) eq_refl eq_refl)
    as (H1 & _ & _ & H2).
  split; [exact H1 |].
  exact (H2 (Py.Float (Py.lit 4000000 0)) _ eq_refl).
Defined.

Lemma half_of_zero (s : bool) :
  (h <- Py.mul (Py.Float (S754_zero s)) (Py.Float (Py.lit 1 (-1))) ;; Py.int h) = inr 0.
Proof. destruct s; vm_compute; reflexivity. Qed.

Lemma zero_over_finite (a : Py.num) (b : Py.num) (s : bool) (m : positive) (e : Z) :
  zero a = true ->
  Py.to_float b = inr (S754_finite s m e) ->
  tap_vector a b = inr [].
Proof.
  intros Hz Hb. unfold tap_vector, tap_count.
  assert (Hq : exists q, Py.div a b = inr q /\ zero q = true).
  { destruct a as [x | fa]; cbn [zero] in Hz.
    - apply Z.eqb_eq in Hz. subst x. destruct b as [y | fb].
      + destruct (Z.eqb_spec y 0) as [-> | Hy]; [discriminate Hb |].
        exists (Py.Int 0). unfold Py.div. apply Z.eqb_neq in Hy. rewrite Hy.
        split; reflexivity.
      + cbn [Py.to_float] in Hb. injection Hb as ->.
        exists (Py.Float (S754_zero (xorb false s))). split; reflexivity.
    - destruct fa as [sa | | |]; try discriminate Hz.
      exists (Py.Float (S754_zero (xorb sa s))).
      split; [| reflexivity].
      unfold Py.div.
      assert (E : Py.bind (Py.to_float (Py.Float (S754_zero sa)))
                    (fun fa => Py.bind (Py.to_float b)
                       (fun fb => Py.bind (Py.float_div fa fb)
                                    (fun q => Py.ret (Py.Float q)))) =
                  inr (Py.Float (S754_zero (xorb sa s)))).
      { rewrite Hb. reflexivity. }
      destruct b; exact E. }
  destruct Hq as (q & -> & Hq). cbn [Py.bind].
  assert (Hh : (h <- Py.mul q (Py.Float (Py.lit 1 (-1))) ;; Py.int h) = inr 0).
  { destruct q as [x | fq]; cbn [zero] in Hq.
    - apply Z.eqb_eq in Hq. subst x. vm_compute. reflexivity.
    - destruct fq; try discriminate Hq. apply half_of_zero. }
  rewrite Hh. reflexivity.
Qed.

(** X9. [set_adc_rate] with a zero, the stored [blf] being finite and not
    zero, returns with no taps at all: the stored vector and the filter's
    taps are empty. *)
Theorem zero_adc_rate_empties_filter
  (a : Py.num) (self : top_block) (s : bool) (m : positive) (e : Z) :
  zero a = true ->
  Py.to_float (blf (vars self)) = inr (S754_finite s m e) ->
  exists self',
    set_adc_rate a self = (self', inr tt) /\
    adc_rate (vars self') = a /\
    num_taps (vars self') = [] /\
    fir_taps (fir_filter_xxx_0 (blks self')) = [].
Proof.
  intros Hz Hb. eexists. rewrite set_adc_rate_eq.
  rewrite (zero_over_finite a _ s m e Hz Hb), set_num_taps_eq.
  repeat split.
Qed.

Lemma zero_adc_rate_started :
  exists self',
    set_adc_rate (Py.Int 0) started = (self', inr tt) /\
    adc_rate (vars self') = Py.Int 0 /\
    num_taps (vars self') = [] /\
    fir_taps (fir_filter_xxx_0 (blks self')) = [].
Proof.
  exact (zero_adc_rate_empties_filter (Py.Int 0) started
           false 5497558138880000 (-37) eq_refl eq_refl).
Defined.

(** X11. Construction with a zero [blf] or a zero [decim] raises: a zero
    [blf] gives [ZeroDivisionError] at the tap vector, before any block is
    made, and a zero [decim] gives it at the first block whenever the tap
    vector could be computed. *)
Theorem zero_divisor_fails_construction (c : config) (f : spec_float) :
  Py.to_float (cfg_adc_rate c) = inr f ->
  zero (cfg_blf c) = true \/ zero (cfg_decim c) = true ->
  (exists e, build c = inl e) /\
  (zero (cfg_blf c) = true -> build c = inl Py.ZeroDivisionError) /\
  (zero (cfg_decim c) = true ->
   forall taps, tap_vector (cfg_adc_rate c) (cfg_blf c) = inr taps ->
                build c = inl Py.ZeroDivisionError).
Proof.
  intros Ha Hz.
  assert (Hblf : zero (cfg_blf c) = true -> build c = inl Py.ZeroDivisionError).
  { intros Hb. unfold build, tap_vector, tap_count, Py.bind.
    now rewrite (div_by_zero _ _ f Hb Ha). }
  assert (Hdec : zero (cfg_decim c) = true ->
                 forall taps, tap_vector (cfg_adc_rate c) (cfg_blf c) = inr taps ->
                              build c = inl Py.ZeroDivisionError).
  { intros Hd taps Ht. unfold build, Py.bind. rewrite Ht.
    unfold effective_rate, Py.bind. now rewrite (div_by_zero _ _ f Hd Ha). }
  split; [| split; assumption].
  destruct Hz as [Hb | Hd].
  - eexists. exact (Hblf Hb).
  - destruct (tap_vector (cfg_adc_rate c) (cfg_blf c)) as [e | taps] eqn:Ht.
    + exists e. unfold build, Py.bind. now rewrite Ht.
    + eexists. exact (Hdec Hd taps eq_refl).
Qed.

Lemma zero_divisor_shipped :
  build (with_cfg_decim (Py.Float (S754_zero true)) shipped_config) =
    inl Py.ZeroDivisionError.
Proof.
  destruct (zero_divisor_fails_construction
              (with_cfg_decim (Py.Float (S754_zero true)) shipped_config)
              (S754_finite false 8589934592000000 (-32)) eq_refl (or_intror eq_refl))
    as (_ & _ & H).
  apply (H eq_refl (Py.copies 25 [Py.Int 1])). vm_compute. reflexivity.
Defined.

(** ** The taps a retuning installs *)

Lemma copies_all_ones (n : nat) : Forall (fun t => t = Py.Int 1) (Py.copies n [Py.Int 1]).
Proof.
  induction n as [| n IH]; cbn [Py.copies app]; [constructor |].
  constructor; [reflexivity | exact IH].
Qed.

(** X12. Whenever [set_blf] or [set_adc_rate] returns, the filter's taps
    are a boxcar, every tap being the integer 1, of the length
    [int(adc_rate/blf * 0.5)] (none for a negative count), which fits an
    index. *)
Theorem retuned_taps_are_boxcar (c : call) (self : top_block) :
  tunes c = true ->
  target c <> Num_taps ->
  snd (invoke c self) = inr tt ->
  let self' := fst (invoke c self) in
  exists n : Z,
    tap_count (adc_rate (vars self')) (blf (vars self')) = inr n /\
    - Py.maxsize - 1 <= n <= Py.maxsize /\
    List.length (fir_taps (fir_filter_xxx_0 (blks self'))) = Z.to_nat n /\
    Forall (fun t => t = Py.Int 1) (fir_taps (fir_filter_xxx_0 (blks self'))).
Proof.
  destruct c as [v|v|v|v|v|v|v|v|v|v]; cbn [tunes target]; try discriminate;
    intros _ Hn; try (contradiction Hn; reflexivity); step_setters.
  - destruct (tap_vector (adc_rate (vars self)) v) as [e | taps] eqn:Ht; [discriminate |].
    intros _. step_setters.
    destruct (tap_vector_inv _ _ _ Ht) as (n & Hc & Hb & ->).
    exists n. split; [exact Hc |]. split; [exact Hb |].
    split; [apply length_copies_singleton | apply copies_all_ones].
  - destruct (tap_vector v (blf (vars self))) as [e | taps] eqn:Ht; [discriminate |].
    intros _. step_setters.
    destruct (tap_vector_inv _ _ _ Ht) as (n & Hc & Hb & ->).
    exists n. split; [exact Hc |]. split; [exact Hb |].
    split; [apply length_copies_singleton | apply copies_all_ones].
Qed.

Lemma retuned_taps_started :
  exists n : Z,
    tap_count (adc_rate (vars drifted)) (blf (vars drifted)) = inr n /\
    - Py.maxsize - 1 <= n <= Py.maxsize /\
    List.length (fir_taps (fir_filter_xxx_0 (blks drifted))) = Z.to_nat n /\
    Forall (fun t => t = Py.Int 1) (fir_taps (fir_filter_xxx_0 (blks drifted))).
Proof.
  refine (retuned_taps_are_boxcar (Set_adc_rate (Py.Float (Py.lit 4000000 0))) started
            eq_refl _ _).
  - discriminate.
  - vm_compute. reflexivity.
Defined.

(** ** Integer rates *)












